(** * OACC: order-agnostic compile-time configuration

    A shallow embedding of [oacc_example.cpp].  The program is evaluated
    entirely by the C++ compiler ([consteval] functions, a constrained
    variadic template and two [static_assert]s), so "running" it means
    instantiating its templates.  The embedding keeps that reading:

    - a parameter pack is a [list]; the type of a pack element is an
      [arg_type], the element itself an [arg];
    - [uint64_t] is [Z] with the reduction modulo [2^64] written out;
    - a failed [static_assert] leaves the name of the undefined template
      [error_printer_impl_val<...>] or [error_printer_impl<...>] in the
      compiler output: a [diagnostic];
    - an expression that is no constant expression (division by zero) is
      [None]. *)

From Stdlib Require Import ZArith Bool List Lia.
From Stdlib Require Import Sorting.Permutation.
Import ListNotations.
Open Scope Z_scope.

(** ** 64-bit unsigned arithmetic *)

(** [std::numeric_limits<uint64_t>::max()] *)
Definition uint64_max : Z := 2 ^ 64 - 1.

Definition wrap64 (x : Z) : Z := x mod 2 ^ 64.

Definition is_uint64 (x : Z) : Prop := 0 <= x <= uint64_max.

(** ** The strongly typed wrappers

    Every wrapper is an [enum class] over [bool] or [uint64_t] with the
    enumerators [disabled] (the minimum) and [enabled] (the maximum). *)

Definition flag_disabled : bool := false.
Definition flag_enabled : bool := true.
Definition value_disabled : Z := 0.
Definition value_enabled : Z := uint64_max.

(** The nine wrapper types, as types. *)
Inductive arg_type : Type :=
| T_exceptions
| T_max_context_length
| T_gpu_rank
| T_gpu_count
| T_max_generation_length
| T_max_prompt_length
| T_max_batch_size
| T_benchmark
| T_dev.

(** A value of one of the wrapper types: what a call site passes. *)
Inductive arg : Type :=
| exceptions_type (value : bool)
| max_context_length_type (value : Z)
| gpu_rank_type (value : Z)
| gpu_count_type (value : Z)
| max_generation_length_type (value : Z)
| max_prompt_length_type (value : Z)
| max_batch_size_type (value : Z)
| benchmark_type (value : bool)
| dev_type (value : bool).

Definition type_of (a : arg) : arg_type :=
  match a with
  | exceptions_type _ => T_exceptions
  | max_context_length_type _ => T_max_context_length
  | gpu_rank_type _ => T_gpu_rank
  | gpu_count_type _ => T_gpu_count
  | max_generation_length_type _ => T_max_generation_length
  | max_prompt_length_type _ => T_max_prompt_length
  | max_batch_size_type _ => T_max_batch_size
  | benchmark_type _ => T_benchmark
  | dev_type _ => T_dev
  end.

(** [std::is_same_v] on the wrapper types. *)
Definition is_same (t u : arg_type) : bool :=
  match t, u with
  | T_exceptions, T_exceptions
  | T_max_context_length, T_max_context_length
  | T_gpu_rank, T_gpu_rank
  | T_gpu_count, T_gpu_count
  | T_max_generation_length, T_max_generation_length
  | T_max_prompt_length, T_max_prompt_length
  | T_max_batch_size, T_max_batch_size
  | T_benchmark, T_benchmark
  | T_dev, T_dev => true
  | _, _ => false
  end.

(** An argument carries a value its underlying type can hold. *)
Definition arg_in_range (a : arg) : Prop :=
  match a with
  | exceptions_type _ | benchmark_type _ | dev_type _ => True
  | max_context_length_type v
  | gpu_rank_type v
  | gpu_count_type v
  | max_generation_length_type v
  | max_prompt_length_type v
  | max_batch_size_type v => is_uint64 v
  end.

(** ** [struct model_config] *)

Record model_config : Type := Build_model_config {
  exceptions : bool;
  max_context_length : Z;
  max_prompt_length : Z;
  max_generation_length : Z;
  max_batch_size : Z;
  gpu_count : Z;
  gpu_rank : Z;
  benchmark : bool;
  dev : bool
}.

(** [model_config config_new{}]: the default member initialisers. *)
Definition model_config_default : model_config :=
  {| exceptions := flag_disabled;
     max_context_length := 1024;
     max_prompt_length := uint64_max;
     max_generation_length := uint64_max;
     max_batch_size := 1;
     gpu_count := 1;
     gpu_rank := value_disabled;
     benchmark := flag_disabled;
     dev := flag_disabled |}.

Definition config_in_range (c : model_config) : Prop :=
  is_uint64 (max_context_length c) /\
  is_uint64 (max_prompt_length c) /\
  is_uint64 (max_generation_length c) /\
  is_uint64 (max_batch_size c) /\
  is_uint64 (gpu_count c) /\
  is_uint64 (gpu_rank c).

(** The nine overloads of [model_config::update].  Overload resolution
    picks the overload by the argument's type; each copies [*this] and
    assigns one member. *)
Definition update (this : model_config) (a : arg) : model_config :=
  match a with
  | exceptions_type value =>
      {| exceptions := value;
         max_context_length := max_context_length this;
         max_prompt_length := max_prompt_length this;
         max_generation_length := max_generation_length this;
         max_batch_size := max_batch_size this;
         gpu_count := gpu_count this;
         gpu_rank := gpu_rank this;
         benchmark := benchmark this;
         dev := dev this |}
  | max_context_length_type value =>
      {| exceptions := exceptions this;
         max_context_length := value;
         max_prompt_length := max_prompt_length this;
         max_generation_length := max_generation_length this;
         max_batch_size := max_batch_size this;
         gpu_count := gpu_count this;
         gpu_rank := gpu_rank this;
         benchmark := benchmark this;
         dev := dev this |}
  | gpu_rank_type value =>
      {| exceptions := exceptions this;
         max_context_length := max_context_length this;
         max_prompt_length := max_prompt_length this;
         max_generation_length := max_generation_length this;
         max_batch_size := max_batch_size this;
         gpu_count := gpu_count this;
         gpu_rank := value;
         benchmark := benchmark this;
         dev := dev this |}
  | gpu_count_type value =>
      {| exceptions := exceptions this;
         max_context_length := max_context_length this;
         max_prompt_length := max_prompt_length this;
         max_generation_length := max_generation_length this;
         max_batch_size := max_batch_size this;
         gpu_count := value;
         gpu_rank := gpu_rank this;
         benchmark := benchmark this;
         dev := dev this |}
  | max_prompt_length_type value =>
      {| exceptions := exceptions this;
         max_context_length := max_context_length this;
         max_prompt_length := value;
         max_generation_length := max_generation_length this;
         max_batch_size := max_batch_size this;
         gpu_count := gpu_count this;
         gpu_rank := gpu_rank this;
         benchmark := benchmark this;
         dev := dev this |}
  | max_generation_length_type value =>
      {| exceptions := exceptions this;
         max_context_length := max_context_length this;
         max_prompt_length := max_prompt_length this;
         max_generation_length := value;
         max_batch_size := max_batch_size this;
         gpu_count := gpu_count this;
         gpu_rank := gpu_rank this;
         benchmark := benchmark this;
         dev := dev this |}
  | max_batch_size_type value =>
      {| exceptions := exceptions this;
         max_context_length := max_context_length this;
         max_prompt_length := max_prompt_length this;
         max_generation_length := max_generation_length this;
         max_batch_size := value;
         gpu_count := gpu_count this;
         gpu_rank := gpu_rank this;
         benchmark := benchmark this;
         dev := dev this |}
  | benchmark_type value =>
      {| exceptions := exceptions this;
         max_context_length := max_context_length this;
         max_prompt_length := max_prompt_length this;
         max_generation_length := max_generation_length this;
         max_batch_size := max_batch_size this;
         gpu_count := gpu_count this;
         gpu_rank := gpu_rank this;
         benchmark := value;
         dev := dev this |}
  | dev_type value =>
      {| exceptions := exceptions this;
         max_context_length := max_context_length this;
         max_prompt_length := max_prompt_length this;
         max_generation_length := max_generation_length this;
         max_batch_size := max_batch_size this;
         gpu_count := gpu_count this;
         gpu_rank := gpu_rank this;
         benchmark := benchmark this;
         dev := value |}
  end.

(** The member of [config] whose declared type is [t], as a value of that
    type ("each field corresponds to exactly one wrapper type"). *)
Definition member (t : arg_type) (config : model_config) : arg :=
  match t with
  | T_exceptions => exceptions_type (exceptions config)
  | T_max_context_length => max_context_length_type (max_context_length config)
  | T_gpu_rank => gpu_rank_type (gpu_rank config)
  | T_gpu_count => gpu_count_type (gpu_count config)
  | T_max_generation_length =>
      max_generation_length_type (max_generation_length config)
  | T_max_prompt_length => max_prompt_length_type (max_prompt_length config)
  | T_max_batch_size => max_batch_size_type (max_batch_size config)
  | T_benchmark => benchmark_type (benchmark config)
  | T_dev => dev_type (dev config)
  end.

Definition all_arg_types : list arg_type :=
  [T_exceptions; T_max_context_length; T_gpu_rank; T_gpu_count;
   T_max_generation_length; T_max_prompt_length; T_max_batch_size;
   T_benchmark; T_dev].

(** ** Dependent defaults *)

(** [constexpr uint64_t ceil_div(uint64_t a, uint64_t b)]: the sum and the
    difference are reduced modulo [2^64]; a zero divisor is no constant
    expression. *)
Definition ceil_div (a b : Z) : option Z :=
  if b =? 0 then None else Some (wrap64 (wrap64 (a + b) - 1) / b).

(** [get_updated_value<value_01, value_02>()] *)
Definition get_updated_value (value_01 value_02 : Z) : option Z :=
  if value_01 =? uint64_max then ceil_div value_02 2 else Some value_01.

(** The ceiling of the rational [a / b], without any machine arithmetic:
    what "ceil(a / b)" denotes in the specification. *)
Definition ceiling (a b : Z) : Z := - ((- a) / b).

(** ** Diagnostics *)

Inductive model_config_errors : Type :=
| context_length_too_large
| context_length_too_short
| prompt_length_or_generation_length_too_large
| duplicate_type_input.

(** The undefined templates whose instantiation a failed assertion forces;
    the error and the offending values or types are read off its name. *)
Inductive diagnostic : Type :=
| error_printer_impl_val (enum_error : model_config_errors) (values : list Z)
| error_printer_impl (enum_error : model_config_errors) (types : list arg_type).

Definition enum_error_of (d : diagnostic) : model_config_errors :=
  match d with
  | error_printer_impl_val e _ => e
  | error_printer_impl e _ => e
  end.

(** [static_assert_printer_val<value, enum_error, values...>::impl] *)
Definition static_assert_printer_val
    (value : bool) (enum_error : model_config_errors) (values : list Z)
  : list diagnostic :=
  if value then [] else [error_printer_impl_val enum_error values].

(** [static_assert_printer<value, enum_error, types...>::impl] *)
Definition static_assert_printer
    (value : bool) (enum_error : model_config_errors) (types : list arg_type)
  : list diagnostic :=
  if value then [] else [error_printer_impl enum_error types].

(** ** [template<const model_config& config> struct model_config_type] *)

Module model_config_type.

(** The [static constexpr] members of one instantiation. *)
Record t : Type := Build_t {
  exceptions : bool;
  max_context_length : Z;
  max_prompt_length : Z;
  max_generation_length : Z;
  max_batch_size : Z;
  gpu_count : Z;
  gpu_rank : Z;
  benchmark : bool;
  dev : bool
}.

End model_config_type.

(** The member initialisers, in declaration order.  Both lengths are
    computed from the already initialised [max_context_length]. *)
Definition members (config : model_config) : option model_config_type.t :=
  let mcl := max_context_length config in
  match get_updated_value (max_prompt_length config) mcl with
  | None => None
  | Some mpl =>
      match get_updated_value (max_generation_length config) mcl with
      | None => None
      | Some mgl =>
          Some {| model_config_type.exceptions := exceptions config;
                  model_config_type.max_context_length := mcl;
                  model_config_type.max_prompt_length := mpl;
                  model_config_type.max_generation_length := mgl;
                  model_config_type.max_batch_size := max_batch_size config;
                  model_config_type.gpu_count := gpu_count config;
                  model_config_type.gpu_rank := gpu_rank config;
                  model_config_type.benchmark := benchmark config;
                  model_config_type.dev := dev config |}
      end
  end.

(** The two [static_assert]s of the class body.  Each is checked on its
    own, so an instantiation can fail both; the diagnostics come in source
    order. *)
Definition static_asserts (m : model_config_type.t) : list diagnostic :=
  let mcl := model_config_type.max_context_length m in
  let mgl := model_config_type.max_generation_length m in
  let mpl := model_config_type.max_prompt_length m in
  static_assert_printer_val (1 <? mcl) context_length_too_short [mcl]
  ++ static_assert_printer_val (wrap64 (mgl + mpl) <=? mcl)
       prompt_length_or_generation_length_too_large [mcl; mgl; mpl].

(** What instantiating [model_config_type<config>] gives. *)
Inductive instantiation : Type :=
| Instantiated (m : model_config_type.t)
| Ill_formed (errors : list diagnostic)
| Not_constant.

Definition instantiate (config : model_config) : instantiation :=
  match members config with
  | None => Not_constant
  | Some m =>
      match static_asserts m with
      | [] => Instantiated m
      | errors => Ill_formed errors
      end
  end.

(** Validation fails with [e]: [e] is among the reported errors. *)
Definition fails_with (r : instantiation) (e : model_config_errors) : Prop :=
  match r with
  | Ill_formed errors => In e (map enum_error_of errors)
  | _ => False
  end.

Definition succeeds (r : instantiation) : Prop :=
  match r with
  | Instantiated _ => True
  | _ => False
  end.

(** ** The builder *)

(** [type_occurrence_count<search_type, check_types...>]: the right fold
    [(is_same + ...)].  A pack has far fewer than [2^64] elements, so the
    sum is written without reduction. *)
Fixpoint type_occurrence_count
    (search_type : arg_type) (check_types : list arg_type) : Z :=
  match check_types with
  | [] => 0
  | t :: rest =>
      Z.b2z (is_same search_type t) + type_occurrence_count search_type rest
  end.

(** [concept unique_configuration_types<arg_types...>]: the fold over [&&]
    of "occurs exactly once"; [true] on the empty pack. *)
Definition unique_configuration_types (arg_types : list arg_type) : bool :=
  forallb (fun t => type_occurrence_count t arg_types =? 1) arg_types.

(** The comma fold [((config_new = config_new.update(args)), ...)]:
    the arguments are applied from left to right. *)
Definition apply_updates (config_new : model_config) (args : list arg)
  : model_config :=
  fold_left update args config_new.

(** [generate_model_config(model_config config_new, arg_types... args)].
    The concept on the pack and the [static_assert] at the top of the body
    test the same predicate before the fold runs. *)
Definition generate_model_config_from
    (config_new : model_config) (args : list arg)
  : diagnostic + model_config :=
  let arg_types := map type_of args in
  match static_assert_printer (unique_configuration_types arg_types)
          duplicate_type_input arg_types with
  | [] => inr (apply_updates config_new args)
  | error :: _ => inl error
  end.

(** [generate_model_config(arg_types... args)] *)
Definition generate_model_config (args : list arg)
  : diagnostic + model_config :=
  generate_model_config_from model_config_default args.

(** ** The configurations of [main] *)

Definition config_01 : diagnostic + model_config :=
  generate_model_config [].

Definition config_02 : diagnostic + model_config :=
  generate_model_config
    [dev_type flag_disabled; benchmark_type flag_disabled;
     max_batch_size_type 23].

Definition config_03 : diagnostic + model_config :=
  generate_model_config
    [benchmark_type flag_disabled; max_context_length_type 23;
     dev_type flag_enabled].

(** ** The validation rules as the specification words them

    These two are not taken from the source: they restate steps 1, 2 and 4
    of the specification's validation contract over the integers, to be
    compared with [get_updated_value] and [static_asserts]. *)

(** "If it equals the unset sentinel, set it to ceil(max-context-length /
    2); otherwise keep as given." *)
Definition resolved_by_ceiling (given context resolved : Z) : Prop :=
  (given = uint64_max -> resolved = ceiling context 2) /\
  (given <> uint64_max -> resolved = given).

(** "resolved-max-generation-length + resolved-max-prompt-length <=
    max-context-length" fails. *)
Definition sum_exceeds_context (m : model_config_type.t) : Prop :=
  model_config_type.max_context_length m
  < model_config_type.max_generation_length m
    + model_config_type.max_prompt_length m.

(** The resolution of the dependent defaults is no constant expression:
    it divides by zero. *)
Definition divides_by_zero (config : model_config) : Prop :=
  members config = None.

(** ** Sample configurations *)

(** [generate_model_config(max_context_length_type::enabled)] *)
Definition config_context_enabled : model_config :=
  apply_updates model_config_default [max_context_length_type value_enabled].

(** [generate_model_config(max_context_length_type::disabled)] *)
Definition config_context_disabled : model_config :=
  apply_updates model_config_default [max_context_length_type value_disabled].

(** [generate_model_config(max_context_length_type{ 1 })] *)
Definition config_context_1 : model_config :=
  apply_updates model_config_default [max_context_length_type 1].

(** [generate_model_config(max_context_length_type{ 2 },
    max_prompt_length_type{ 1 }, max_generation_length_type{ 1 })] *)
Definition config_2_1_1 : model_config :=
  apply_updates model_config_default
    [max_context_length_type 2; max_prompt_length_type 1;
     max_generation_length_type 1].

(** [generate_model_config(max_context_length_type{ 10 },
    max_prompt_length_type{ 6 }, max_generation_length_type{ 6 })] *)
Definition config_10_6_6 : model_config :=
  apply_updates model_config_default
    [max_context_length_type 10; max_prompt_length_type 6;
     max_generation_length_type 6].

(** [generate_model_config(max_context_length_type{ 100 })] and
    [generate_model_config(max_context_length_type{ 101 })] *)
Definition config_context_100 : model_config :=
  apply_updates model_config_default [max_context_length_type 100].

Definition config_context_101 : model_config :=
  apply_updates model_config_default [max_context_length_type 101].

(** Both lengths set to [2^63], the context length left at 1024. *)
Definition config_half_range_lengths : model_config :=
  apply_updates model_config_default
    [max_prompt_length_type (2 ^ 63); max_generation_length_type (2 ^ 63)].

(** [generate_model_config(max_prompt_length_type{ 2^64 - 2 },
    max_generation_length_type{ 3 })] *)
Definition config_wrapping_sum : model_config :=
  apply_updates model_config_default
    [max_prompt_length_type (2 ^ 64 - 2); max_generation_length_type 3].

(** * Properties *)

(** ** Wrapper types and the uniqueness concept *)

Lemma is_same_iff (t u : arg_type) : is_same t u = true <-> t = u.
Proof.
  split.
  - destruct t, u; simpl; intro H; try reflexivity; discriminate H.
  - intros <-. destruct t; reflexivity.
Qed.

Lemma is_same_refl (t : arg_type) : is_same t t = true.
Proof. now apply is_same_iff. Qed.

Lemma is_same_neq (t u : arg_type) : t <> u -> is_same t u = false.
Proof.
  intro Hne. destruct (is_same t u) eqn:E; [|reflexivity].
  apply is_same_iff in E. contradiction.
Qed.

Lemma arg_type_eq_dec (t u : arg_type) : {t = u} + {t <> u}.
Proof. decide equality. Defined.

Lemma type_occurrence_count_cons (t u : arg_type) (l : list arg_type) :
  type_occurrence_count t (u :: l)
  = (if is_same t u then 1 else 0) + type_occurrence_count t l.
Proof. cbn [type_occurrence_count]. now destruct (is_same t u). Qed.

Lemma type_occurrence_count_nonneg (t : arg_type) (l : list arg_type) :
  0 <= type_occurrence_count t l.
Proof.
  induction l as [|u l IH]; [reflexivity|].
  rewrite type_occurrence_count_cons. destruct (is_same t u); lia.
Qed.

Lemma type_occurrence_count_zero (t : arg_type) (l : list arg_type) :
  type_occurrence_count t l = 0 <-> ~ In t l.
Proof.
  induction l as [|u l IH].
  - cbn. tauto.
  - pose proof (type_occurrence_count_nonneg t l) as Hge.
    rewrite type_occurrence_count_cons. cbn [In].
    destruct (arg_type_eq_dec t u) as [->|Hne].
    + rewrite is_same_refl. split; [lia|]. intro H. exfalso. auto.
    + rewrite (is_same_neq _ _ Hne), Z.add_0_l, IH.
      split; [intros H [E|E]; [congruence|contradiction]|tauto].
Qed.

(** Every type of the pack occurs in it exactly once: the pack has no
    repetition. *)
Lemma occurs_once_NoDup (l : list arg_type) :
  (forall t, In t l -> type_occurrence_count t l = 1) <-> NoDup l.
Proof.
  induction l as [|u l IH].
  - split; [constructor | intros _ t []].
  - split.
    + intro H.
      assert (Hu : ~ In u l).
      { apply type_occurrence_count_zero.
        specialize (H u (or_introl eq_refl)).
        rewrite type_occurrence_count_cons, is_same_refl in H. lia. }
      constructor; [exact Hu|].
      apply IH. intros t Ht.
      specialize (H t (or_intror Ht)).
      rewrite type_occurrence_count_cons, is_same_neq in H
        by (intros ->; contradiction).
      exact H.
    + intros Hnd t Ht. inversion Hnd as [|? ? Hu Hl]; subst.
      rewrite type_occurrence_count_cons. destruct Ht as [<-|Ht].
      * rewrite is_same_refl.
        apply type_occurrence_count_zero in Hu. lia.
      * rewrite is_same_neq by (intros ->; contradiction).
        rewrite Z.add_0_l. now apply IH.
Qed.

Lemma unique_configuration_types_NoDup (l : list arg_type) :
  unique_configuration_types l = true <-> NoDup l.
Proof.
  unfold unique_configuration_types.
  rewrite forallb_forall, <- occurs_once_NoDup.
  split; intros H t Ht; specialize (H t Ht); lia.
Qed.

Lemma unique_configuration_types_dup (l : list arg_type) :
  ~ NoDup l -> unique_configuration_types l = false.
Proof.
  intro H. destruct (unique_configuration_types l) eqn:E; [|reflexivity].
  apply unique_configuration_types_NoDup in E. contradiction.
Qed.

(** ** What the builder returns *)

Lemma generate_model_config_from_unique (base : model_config) (args : list arg) :
  NoDup (map type_of args) ->
  generate_model_config_from base args = inr (apply_updates base args).
Proof.
  intro H. unfold generate_model_config_from.
  apply unique_configuration_types_NoDup in H. now rewrite H.
Qed.

Lemma generate_model_config_from_dup (base : model_config) (args : list arg) :
  ~ NoDup (map type_of args) ->
  generate_model_config_from base args
  = inl (error_printer_impl duplicate_type_input (map type_of args)).
Proof.
  intro H. unfold generate_model_config_from.
  now rewrite (unique_configuration_types_dup _ H).
Qed.

(** Two positions of a pack holding arguments of one type: the pack of
    types has a repetition. *)
Lemma shared_type_not_NoDup (args : list arg) (i j : nat) (a a' : arg) :
  i <> j ->
  nth_error args i = Some a ->
  nth_error args j = Some a' ->
  type_of a = type_of a' ->
  ~ NoDup (map type_of args).
Proof.
  intros Hij Hi Hj Hty Hnd.
  apply Hij.
  apply (proj1 (NoDup_nth_error (map type_of args)) Hnd).
  - rewrite length_map. apply nth_error_Some. congruence.
  - rewrite !nth_error_map, Hi, Hj. simpl. now rewrite Hty.
Qed.

(** ** Updates *)

Lemma member_type_of (t : arg_type) (config : model_config) :
  type_of (member t config) = t.
Proof. destruct t; reflexivity. Qed.

(** A configuration is its nine members. *)
Lemma member_ext (c c' : model_config) :
  (forall t, member t c = member t c') -> c = c'.
Proof.
  intro H. destruct c, c'.
  pose proof (H T_exceptions) as H1.
  pose proof (H T_max_context_length) as H2.
  pose proof (H T_gpu_rank) as H3.
  pose proof (H T_gpu_count) as H4.
  pose proof (H T_max_generation_length) as H5.
  pose proof (H T_max_prompt_length) as H6.
  pose proof (H T_max_batch_size) as H7.
  pose proof (H T_benchmark) as H8.
  pose proof (H T_dev) as H9.
  simpl in *. congruence.
Qed.

Lemma member_update_same (config : model_config) (a : arg) :
  member (type_of a) (update config a) = a.
Proof. destruct a; reflexivity. Qed.

Lemma member_update_other (config : model_config) (a : arg) (t : arg_type) :
  t <> type_of a -> member t (update config a) = member t config.
Proof. destruct a, t; simpl; intro H; try reflexivity; contradiction. Qed.

(** Updates of different members commute. *)
Lemma update_comm (config : model_config) (a b : arg) :
  type_of a <> type_of b ->
  update (update config a) b = update (update config b) a.
Proof.
  intro Hne. apply member_ext. intro t.
  destruct (arg_type_eq_dec t (type_of b)) as [->|Hb].
  - rewrite member_update_same.
    rewrite member_update_other by congruence.
    now rewrite member_update_same.
  - rewrite (member_update_other _ b) by exact Hb.
    destruct (arg_type_eq_dec t (type_of a)) as [->|Ha].
    + now rewrite !member_update_same.
    + now rewrite !member_update_other by assumption.
Qed.

Lemma apply_updates_Permutation (args args' : list arg) :
  Permutation args args' ->
  NoDup (map type_of args) ->
  forall config, apply_updates config args = apply_updates config args'.
Proof.
  unfold apply_updates.
  induction 1 as [|a l l' Hp IH|a b l|l l' l'' Hp1 IH1 Hp2 IH2];
    intros Hnd config; simpl.
  - reflexivity.
  - inversion Hnd; subst. now apply IH.
  - inversion Hnd as [|? ? Hin _]; subst.
    rewrite (update_comm config b a); [reflexivity|].
    intro E. apply Hin. left. now symmetry.
  - rewrite IH1 by exact Hnd. apply IH2.
    eapply Permutation_NoDup; [|exact Hnd].
    now apply Permutation_map.
Qed.

(** ** Dependent defaults *)

Lemma uint64_max_value : uint64_max = 18446744073709551615.
Proof. reflexivity. Qed.

(** [ceiling a b] is the least integer [q] with [a <= b * q]. *)
Lemma ceiling_spec (a b : Z) :
  0 < b -> b * (ceiling a b - 1) < a <= b * ceiling a b.
Proof.
  intro Hb. unfold ceiling.
  pose proof (Z.div_mod (- a) b ltac:(lia)) as Hdm.
  pose proof (Z.mod_pos_bound (- a) b Hb) as Hm.
  nia.
Qed.

Lemma ceil_div_zero_divisor (a : Z) : ceil_div a 0 = None.
Proof. reflexivity. Qed.

Lemma ceil_div_defined (a b : Z) :
  b <> 0 -> ceil_div a b = Some (wrap64 (wrap64 (a + b) - 1) / b).
Proof.
  intro Hb. unfold ceil_div.
  destruct (Z.eqb_spec b 0) as [E|_]; [contradiction|reflexivity].
Qed.

(** Below [UINT64_MAX] nothing wraps and halving rounds up. *)
Lemma ceil_div_two_ceiling (a : Z) :
  0 <= a < uint64_max -> ceil_div a 2 = Some (ceiling a 2).
Proof.
  intro Ha. rewrite ceil_div_defined by lia. f_equal.
  unfold wrap64, uint64_max in *.
  rewrite Zminus_mod_idemp_l.
  change (2 ^ 64) with 18446744073709551616 in *.
  rewrite (Z.mod_small (a + 2 - 1)) by lia.
  pose proof (ceiling_spec a 2 ltac:(lia)) as Hc.
  pose proof (Z.div_mod (a + 2 - 1) 2 ltac:(lia)) as Hdm.
  pose proof (Z.mod_pos_bound (a + 2 - 1) 2 ltac:(lia)) as Hm.
  lia.
Qed.

(** At [UINT64_MAX] the sum [a + 2] wraps to [1] and the result is [0]. *)
Lemma ceil_div_two_uint64_max : ceil_div uint64_max 2 = Some 0.
Proof. reflexivity. Qed.

Lemma get_updated_value_unset (value_02 : Z) :
  get_updated_value uint64_max value_02 = ceil_div value_02 2.
Proof. reflexivity. Qed.

Lemma get_updated_value_set (value_01 value_02 : Z) :
  value_01 <> uint64_max -> get_updated_value value_01 value_02 = Some value_01.
Proof.
  intro H. unfold get_updated_value.
  destruct (Z.eqb_spec value_01 uint64_max); [contradiction|reflexivity].
Qed.

Lemma get_updated_value_defined (value_01 value_02 : Z) :
  exists v, get_updated_value value_01 value_02 = Some v.
Proof.
  unfold get_updated_value.
  destruct (value_01 =? uint64_max); [|now eexists].
  rewrite ceil_div_defined by lia. now eexists.
Qed.

(** ** Instantiating [model_config_type] *)

Lemma members_defined (config : model_config) :
  exists mpl mgl,
    get_updated_value (max_prompt_length config) (max_context_length config)
    = Some mpl /\
    get_updated_value (max_generation_length config) (max_context_length config)
    = Some mgl /\
    members config
    = Some {| model_config_type.exceptions := exceptions config;
              model_config_type.max_context_length := max_context_length config;
              model_config_type.max_prompt_length := mpl;
              model_config_type.max_generation_length := mgl;
              model_config_type.max_batch_size := max_batch_size config;
              model_config_type.gpu_count := gpu_count config;
              model_config_type.gpu_rank := gpu_rank config;
              model_config_type.benchmark := benchmark config;
              model_config_type.dev := dev config |}.
Proof.
  destruct (get_updated_value_defined
              (max_prompt_length config) (max_context_length config))
    as [mpl Hp].
  destruct (get_updated_value_defined
              (max_generation_length config) (max_context_length config))
    as [mgl Hg].
  exists mpl, mgl. unfold members. rewrite Hp, Hg. auto.
Qed.

Lemma members_max_context_length (config : model_config) (m : model_config_type.t) :
  members config = Some m ->
  model_config_type.max_context_length m = max_context_length config.
Proof.
  destruct (members_defined config) as (mpl & mgl & _ & _ & E).
  rewrite E. intros [= <-]. reflexivity.
Qed.

Lemma members_max_prompt_length (config : model_config) (m : model_config_type.t) :
  members config = Some m ->
  get_updated_value (max_prompt_length config) (max_context_length config)
  = Some (model_config_type.max_prompt_length m).
Proof.
  destruct (members_defined config) as (mpl & mgl & Hp & _ & E).
  rewrite E. intros [= <-]. exact Hp.
Qed.

Lemma members_max_generation_length (config : model_config) (m : model_config_type.t) :
  members config = Some m ->
  get_updated_value (max_generation_length config) (max_context_length config)
  = Some (model_config_type.max_generation_length m).
Proof.
  destruct (members_defined config) as (mpl & mgl & _ & Hg & E).
  rewrite E. intros [= <-]. exact Hg.
Qed.

(** The instantiation succeeds exactly when no assertion fails, and
    otherwise reports the failed assertions. *)
Lemma instantiate_members (config : model_config) (m : model_config_type.t) :
  members config = Some m ->
  (static_asserts m = [] /\ instantiate config = Instantiated m) \/
  (static_asserts m <> [] /\ instantiate config = Ill_formed (static_asserts m)).
Proof.
  intro E. unfold instantiate. rewrite E.
  destruct (static_asserts m); [left|right]; split; congruence.
Qed.

Lemma fails_with_instantiate
    (config : model_config) (m : model_config_type.t) (e : model_config_errors) :
  members config = Some m ->
  fails_with (instantiate config) e
  <-> In e (map enum_error_of (static_asserts m)).
Proof.
  intro E.
  destruct (instantiate_members config m E) as [[Hs ->]|[Hs ->]]; simpl.
  - rewrite Hs. reflexivity.
  - reflexivity.
Qed.

Lemma succeeds_instantiate (config : model_config) (m : model_config_type.t) :
  members config = Some m ->
  succeeds (instantiate config) <-> static_asserts m = [].
Proof.
  intro E.
  destruct (instantiate_members config m E) as [[Hs ->]|[Hs ->]]; simpl; tauto.
Qed.

Ltac split_asserts m :=
  unfold static_asserts, static_assert_printer_val;
  destruct (Z.ltb_spec 1 (model_config_type.max_context_length m))
    as [Hshort|Hshort];
  destruct (Z.leb_spec
              (wrap64 (model_config_type.max_generation_length m
                       + model_config_type.max_prompt_length m))
              (model_config_type.max_context_length m))
    as [Hlarge|Hlarge];
  cbn [app map enum_error_of In].

Lemma static_asserts_too_short (m : model_config_type.t) :
  In context_length_too_short (map enum_error_of (static_asserts m))
  <-> model_config_type.max_context_length m <= 1.
Proof.
  split_asserts m; split; intro Hin; try lia; try tauto;
    repeat (destruct Hin as [Hin|Hin]; try discriminate Hin);
    contradiction.
Qed.

(** The second assertion compares the sum reduced modulo [2^64]. *)
Lemma static_asserts_too_large (m : model_config_type.t) :
  In prompt_length_or_generation_length_too_large
     (map enum_error_of (static_asserts m))
  <-> model_config_type.max_context_length m
      < wrap64 (model_config_type.max_generation_length m
                + model_config_type.max_prompt_length m).
Proof.
  split_asserts m; split; intro Hin; try lia; try tauto;
    repeat (destruct Hin as [Hin|Hin]; try discriminate Hin);
    contradiction.
Qed.

Lemma static_asserts_nil (m : model_config_type.t) :
  static_asserts m = []
  <-> 1 < model_config_type.max_context_length m /\
      wrap64 (model_config_type.max_generation_length m
              + model_config_type.max_prompt_length m)
      <= model_config_type.max_context_length m.
Proof.
  split_asserts m; split; intro Hin;
    try discriminate Hin; try lia; auto.
Qed.

(** ** The specification's rules against the code *)

(** Where the context length is below [UINT64_MAX], the code resolves a
    length by the specification's rule. *)
Lemma get_updated_value_by_ceiling (given context : Z) :
  0 <= context < uint64_max ->
  exists resolved,
    get_updated_value given context = Some resolved /\
    resolved_by_ceiling given context resolved.
Proof.
  intro Hc. unfold resolved_by_ceiling.
  destruct (Z.eq_dec given uint64_max) as [->|Hne].
  - rewrite get_updated_value_unset, (ceil_div_two_ceiling _ Hc).
    eexists. split; [reflexivity|]. split; [reflexivity|congruence].
  - rewrite (get_updated_value_set _ _ Hne).
    eexists. split; [reflexivity|]. split; [contradiction|reflexivity].
Qed.

(** A length that was set is kept, whatever the context length. *)
Lemma get_updated_value_keeps_set (given context resolved : Z) :
  given <> uint64_max ->
  get_updated_value given context = Some resolved -> resolved = given.
Proof.
  intros Hne. rewrite (get_updated_value_set _ _ Hne). congruence.
Qed.

Lemma members_by_ceiling (config : model_config) (m : model_config_type.t) :
  0 <= max_context_length config < uint64_max ->
  members config = Some m ->
  resolved_by_ceiling (max_prompt_length config) (max_context_length config)
    (model_config_type.max_prompt_length m) /\
  resolved_by_ceiling (max_generation_length config) (max_context_length config)
    (model_config_type.max_generation_length m).
Proof.
  intros Hc E.
  pose proof (members_max_prompt_length _ _ E) as Hp.
  pose proof (members_max_generation_length _ _ E) as Hg.
  destruct (get_updated_value_by_ceiling (max_prompt_length config) _ Hc)
    as (p & Ep & Rp).
  destruct (get_updated_value_by_ceiling (max_generation_length config) _ Hc)
    as (g & Eg & Rg).
  split; [replace (model_config_type.max_prompt_length m) with p by congruence
         |replace (model_config_type.max_generation_length m) with g
            by congruence]; assumption.
Qed.

Lemma resolution_context_100 :
  exists m, instantiate config_context_100 = Instantiated m /\
            model_config_type.max_prompt_length m = 50 /\
            ceiling 100 2 = 50.
Proof. eexists. split; [vm_compute; reflexivity|]. now vm_compute. Qed.

(** With the context length odd and both lengths unset the two defaults add
    up to one more than the context length: the lengths are resolved, and
    the second assertion then fails. *)
Lemma resolution_context_101 :
  exists m, members config_context_101 = Some m /\
            model_config_type.max_prompt_length m = 51 /\
            ceiling 101 2 = 51 /\
            instantiate config_context_101
            = Ill_formed
                [error_printer_impl_val
                   prompt_length_or_generation_length_too_large [101; 51; 51]].
Proof. eexists. split; [vm_compute; reflexivity|]. now vm_compute. Qed.

Lemma resolution_context_101_generation_set :
  exists m,
    instantiate (update config_context_101 (max_generation_length_type 50))
    = Instantiated m /\
    model_config_type.max_prompt_length m = 51.
Proof. eexists. split; [vm_compute; reflexivity|]. now vm_compute. Qed.

Lemma resolution_default :
  exists m, instantiate model_config_default = Instantiated m /\
            model_config_type.max_prompt_length m = 512 /\
            model_config_type.max_generation_length m = 512 /\
            ceiling 1024 2 = 512.
Proof. eexists. split; [vm_compute; reflexivity|]. now vm_compute. Qed.

(** Where the sum of the two resolved lengths fits 64 bits, the second
    assertion is the specification's check. *)
Lemma too_large_iff_sum_exceeds (config : model_config) (m : model_config_type.t) :
  members config = Some m ->
  0 <= model_config_type.max_generation_length m
       + model_config_type.max_prompt_length m <= uint64_max ->
  fails_with (instantiate config) prompt_length_or_generation_length_too_large
  <-> sum_exceeds_context m.
Proof.
  intros E Hsum.
  rewrite (fails_with_instantiate _ _ _ E), static_asserts_too_large.
  unfold sum_exceeds_context, wrap64.
  rewrite Z.mod_small; [reflexivity|].
  unfold uint64_max in Hsum.
  change (2 ^ 64) with 18446744073709551616 in *. lia.
Qed.

Lemma too_large_reports_values (config : model_config) (m : model_config_type.t) :
  members config = Some m ->
  fails_with (instantiate config) prompt_length_or_generation_length_too_large ->
  exists errors,
    instantiate config = Ill_formed errors /\
    In (error_printer_impl_val prompt_length_or_generation_length_too_large
          [model_config_type.max_context_length m;
           model_config_type.max_generation_length m;
           model_config_type.max_prompt_length m]) errors.
Proof.
  intros E Hf.
  pose proof (proj1 (fails_with_instantiate _ _ _ E) Hf) as Hin.
  destruct (instantiate_members _ _ E) as [[Hs _]|[_ Hi]].
  - rewrite Hs in Hin. destruct Hin.
  - exists (static_asserts m). split; [exact Hi|].
    apply static_asserts_too_large in Hin.
    unfold static_asserts, static_assert_printer_val.
    apply in_or_app. right.
    destruct (Z.leb_spec
                (wrap64 (model_config_type.max_generation_length m
                         + model_config_type.max_prompt_length m))
                (model_config_type.max_context_length m)); [lia|].
    now left.
Qed.

Lemma rejection_10_6_6 :
  instantiate config_10_6_6
  = Ill_formed
      [error_printer_impl_val prompt_length_or_generation_length_too_large
         [10; 6; 6]].
Proof. reflexivity. Qed.

(** ** Values stay within 64 bits

    The members are [uint64_t] behind an [enum class]; the embedding
    carries them as integers, and the builder and the resolution keep them
    in range, so every [static_cast<uint64_t>] is the identity. *)

Lemma wrap64_range (x : Z) : is_uint64 (wrap64 x).
Proof.
  unfold is_uint64, wrap64, uint64_max.
  pose proof (Z.mod_pos_bound x (2 ^ 64) ltac:(reflexivity)). lia.
Qed.

Lemma wrap64_small (x : Z) : is_uint64 x -> wrap64 x = x.
Proof.
  unfold is_uint64, wrap64, uint64_max. intro H.
  apply Z.mod_small. lia.
Qed.

Lemma model_config_default_in_range : config_in_range model_config_default.
Proof. unfold config_in_range, is_uint64. cbn. repeat split; discriminate. Qed.

Lemma update_in_range (config : model_config) (a : arg) :
  config_in_range config -> arg_in_range a -> config_in_range (update config a).
Proof.
  unfold config_in_range. intros (H1 & H2 & H3 & H4 & H5 & H6) Ha.
  destruct a; cbn [update arg_in_range max_context_length max_prompt_length
                   max_generation_length max_batch_size gpu_count gpu_rank]
    in *; tauto.
Qed.

Lemma apply_updates_in_range (args : list arg) :
  Forall arg_in_range args ->
  forall config,
    config_in_range config -> config_in_range (apply_updates config args).
Proof.
  unfold apply_updates.
  induction 1 as [|a args Ha _ IH]; intros config Hc; cbn [fold_left].
  - exact Hc.
  - apply IH. now apply update_in_range.
Qed.

Lemma get_updated_value_in_range (value_01 value_02 v : Z) :
  is_uint64 value_01 ->
  get_updated_value value_01 value_02 = Some v -> is_uint64 v.
Proof.
  intros H1. unfold get_updated_value.
  destruct (value_01 =? uint64_max).
  - rewrite ceil_div_defined by lia. intros [= <-].
    pose proof (wrap64_range (wrap64 (value_02 + 2) - 1)) as Hw.
    unfold is_uint64 in *.
    pose proof (Z.div_mod (wrap64 (wrap64 (value_02 + 2) - 1)) 2
                  ltac:(lia)) as Hdm.
    pose proof (Z.mod_pos_bound (wrap64 (wrap64 (value_02 + 2) - 1)) 2
                  ltac:(lia)) as Hm.
    lia.
  - now intros [= <-].
Qed.

Lemma members_in_range (config : model_config) (m : model_config_type.t) :
  config_in_range config ->
  members config = Some m ->
  is_uint64 (model_config_type.max_context_length m) /\
  is_uint64 (model_config_type.max_prompt_length m) /\
  is_uint64 (model_config_type.max_generation_length m).
Proof.
  intros (H1 & H2 & H3 & _) E.
  rewrite (members_max_context_length _ _ E).
  split; [exact H1|]. split.
  - exact (get_updated_value_in_range _ _ _ H2
             (members_max_prompt_length _ _ E)).
  - exact (get_updated_value_in_range _ _ _ H3
             (members_max_generation_length _ _ E)).
Qed.

(** A pack the concept accepts has at most one argument per wrapper type,
    nine in all. *)
Lemma all_arg_types_complete (t : arg_type) : In t all_arg_types.
Proof. destruct t; cbn; tauto. Qed.

Lemma unique_pack_length (args : list arg) :
  unique_configuration_types (map type_of args) = true ->
  (length args <= 9)%nat.
Proof.
  intro H. apply unique_configuration_types_NoDup in H.
  rewrite <- (length_map type_of args).
  change 9%nat with (length all_arg_types).
  apply NoDup_incl_length; [exact H|].
  intros t _. apply all_arg_types_complete.
Qed.

(** The overload over a given base configuration is order independent in
    the same way. *)
Lemma generate_model_config_from_Permutation
    (base : model_config) (args args' : list arg) :
  NoDup (map type_of args) ->
  Permutation args args' ->
  generate_model_config_from base args = generate_model_config_from base args'.
Proof.
  intros Hnd Hp.
  rewrite !generate_model_config_from_unique.
  - now rewrite (apply_updates_Permutation _ _ Hp Hnd).
  - eapply Permutation_NoDup; [|exact Hnd]. now apply Permutation_map.
  - exact Hnd.
Qed.

(** * The claims *)

(** C1. Order independence of the builder: for a pack of options of
    pairwise different types, every permutation of the pack makes
    [generate_model_config] return the same configuration. *)
Theorem generate_model_config_order_independent (args args' : list arg) :
  NoDup (map type_of args) ->
  Permutation args args' ->
  exists config,
    generate_model_config args = inr config /\
    generate_model_config args' = inr config.
Proof.
  intros Hnd Hp. unfold generate_model_config.
  exists (apply_updates model_config_default args). split.
  - now apply generate_model_config_from_unique.
  - rewrite (apply_updates_Permutation _ _ Hp Hnd).
    apply generate_model_config_from_unique.
    eapply Permutation_NoDup; [|exact Hnd].
    now apply Permutation_map.
Qed.

Lemma generate_model_config_order_independent_witness :
  exists config,
    generate_model_config
      [dev_type flag_enabled; max_batch_size_type 23;
       max_context_length_type 2048] = inr config /\
    generate_model_config
      [max_context_length_type 2048; dev_type flag_enabled;
       max_batch_size_type 23] = inr config.
Proof.
  apply generate_model_config_order_independent.
  - apply unique_configuration_types_NoDup. reflexivity.
  - apply Permutation_sym.
    exact (Permutation_cons_append
             [dev_type flag_enabled; max_batch_size_type 23]
             (max_context_length_type 2048)).
Defined.

(** C2. Duplicate rejection: when two arguments of a call, at whatever
    positions and with whatever values, have the same type, the call is
    rejected with [duplicate_type_input]; the rejection replaces the whole
    result, so no configuration, partially updated or other, comes out. *)
Theorem generate_model_config_duplicate_rejected
    (args : list arg) (i j : nat) (a a' : arg) :
  i <> j ->
  nth_error args i = Some a ->
  nth_error args j = Some a' ->
  type_of a = type_of a' ->
  generate_model_config args
  = inl (error_printer_impl duplicate_type_input (map type_of args)) /\
  forall config, generate_model_config args <> inr config.
Proof.
  intros Hij Hi Hj Hty.
  assert (E : generate_model_config args
              = inl (error_printer_impl duplicate_type_input
                       (map type_of args))).
  { apply generate_model_config_from_dup.
    exact (shared_type_not_NoDup args i j a a' Hij Hi Hj Hty). }
  split; [exact E|]. intros config. rewrite E. discriminate.
Qed.

Lemma generate_model_config_duplicate_rejected_witness :
  generate_model_config
    [dev_type flag_enabled; benchmark_type flag_disabled;
     dev_type flag_disabled]
  = inl (error_printer_impl duplicate_type_input [T_dev; T_benchmark; T_dev]) /\
  forall config,
    generate_model_config
      [dev_type flag_enabled; benchmark_type flag_disabled;
       dev_type flag_disabled] <> inr config.
Proof.
  apply (generate_model_config_duplicate_rejected
           [dev_type flag_enabled; benchmark_type flag_disabled;
            dev_type flag_disabled]
           0%nat 2%nat (dev_type flag_enabled) (dev_type flag_disabled)).
  - discriminate.
  - reflexivity.
  - reflexivity.
  - reflexivity.
Defined.

(** C3. The specification resolves an unset length to the ceiling of half
    the context length.  The code does so below [UINT64_MAX]
    ([members_by_ceiling]); at [max_context_length_type::enabled], that is
    [UINT64_MAX], validation succeeds with both lengths resolved to [0],
    while the ceiling is [2^63]. *)
Theorem dependent_default_not_ceiling_at_uint64_max :
  max_prompt_length config_context_enabled = uint64_max /\
  ceiling (max_context_length config_context_enabled) 2 = 2 ^ 63 /\
  exists m,
    instantiate config_context_enabled = Instantiated m /\
    model_config_type.max_prompt_length m = 0 /\
    ~ resolved_by_ceiling
        (max_prompt_length config_context_enabled)
        (max_context_length config_context_enabled)
        (model_config_type.max_prompt_length m).
Proof.
  split; [reflexivity|]. split; [reflexivity|].
  eexists. split; [vm_compute; reflexivity|]. split; [reflexivity|].
  intros [H _]. specialize (H eq_refl). vm_compute in H. discriminate H.
Qed.

(** C4. The specification rejects a configuration exactly when the sum of
    the two resolved lengths exceeds the context length.  The code does so
    where the sum fits 64 bits ([too_large_iff_sum_exceeds]); with both
    lengths [2^63] and the context length 1024 the sum exceeds the context
    length and validation succeeds. *)
Theorem sum_check_misses_overflow :
  exists m,
    instantiate config_half_range_lengths = Instantiated m /\
    model_config_type.max_context_length m = 1024 /\
    model_config_type.max_generation_length m = 2 ^ 63 /\
    model_config_type.max_prompt_length m = 2 ^ 63 /\
    sum_exceeds_context m /\
    ~ fails_with (instantiate config_half_range_lengths)
        prompt_length_or_generation_length_too_large.
Proof.
  eexists. split; [vm_compute; reflexivity|].
  repeat (split; [reflexivity|]).
  intro H. vm_compute in H. exact H.
Qed.

(** C5, as stated, fails: with the context length [0] and both lengths
    unset nothing divides by zero.  [get_updated_value] passes the context
    length as the dividend of [ceil_div] and the literal [2] as its
    divisor; both lengths resolve to [0]. *)
Lemma zero_context_length_no_division_by_zero :
  max_context_length config_context_disabled = 0 /\
  max_prompt_length config_context_disabled = uint64_max /\
  max_generation_length config_context_disabled = uint64_max /\
  get_updated_value uint64_max 0 = ceil_div 0 2 /\
  ceil_div 0 2 = Some 0 /\
  ~ divides_by_zero config_context_disabled.
Proof.
  repeat (split; [reflexivity|]).
  unfold divides_by_zero. vm_compute. discriminate.
Qed.

(** C5, amended.  The dependent defaults are [ceil_div] of the context
    length by the constant [2], so the resolution never divides by zero;
    with the context length [0] an unset length resolves to [0], and the
    instantiation is rejected with [context_length_too_short]. *)
Theorem resolution_never_divides_by_zero (config : model_config) :
  max_context_length config = 0 ->
  ~ divides_by_zero config /\
  exists m,
    members config = Some m /\
    (max_prompt_length config = uint64_max ->
     model_config_type.max_prompt_length m = 0) /\
    (max_generation_length config = uint64_max ->
     model_config_type.max_generation_length m = 0) /\
    fails_with (instantiate config) context_length_too_short.
Proof.
  intro Hz.
  destruct (members_defined config) as (mpl & mgl & Hp & Hg & E).
  split; [unfold divides_by_zero; congruence|].
  eexists. split; [exact E|]. cbn [model_config_type.max_prompt_length
                                   model_config_type.max_generation_length].
  rewrite Hz in Hp, Hg.
  split; [|split].
  - intro Hu. rewrite Hu in Hp. vm_compute in Hp. congruence.
  - intro Hu. rewrite Hu in Hg. vm_compute in Hg. congruence.
  - apply (fails_with_instantiate _ _ _ E), static_asserts_too_short.
    cbn [model_config_type.max_context_length]. lia.
Qed.

Lemma resolution_never_divides_by_zero_witness :
  ~ divides_by_zero config_context_disabled /\
  exists m,
    members config_context_disabled = Some m /\
    (max_prompt_length config_context_disabled = uint64_max ->
     model_config_type.max_prompt_length m = 0) /\
    (max_generation_length config_context_disabled = uint64_max ->
     model_config_type.max_generation_length m = 0) /\
    fails_with (instantiate config_context_disabled) context_length_too_short.
Proof.
  apply (resolution_never_divides_by_zero config_context_disabled).
  reflexivity.
Defined.

(** The resolution is defined for every configuration. *)
Lemma resolution_defined (config : model_config) :
  ~ divides_by_zero config /\ instantiate config <> Not_constant.
Proof.
  destruct (members_defined config) as (mpl & mgl & _ & _ & E).
  split; [unfold divides_by_zero; congruence|].
  destruct (instantiate_members _ _ E) as [[_ ->]|[_ ->]]; discriminate.
Qed.

(** C6. Validation fails with [context_length_too_short] exactly when the
    context length is not greater than 1; context length 1 fails with it,
    and context length 2 with both lengths set to 1 validates. *)
Theorem context_length_too_short_iff :
  (forall config,
     fails_with (instantiate config) context_length_too_short
     <-> max_context_length config <= 1) /\
  fails_with (instantiate config_context_1) context_length_too_short /\
  succeeds (instantiate config_2_1_1).
Proof.
  split; [|split].
  - intro config.
    destruct (members_defined config) as (mpl & mgl & _ & _ & E).
    rewrite (fails_with_instantiate _ _ _ E), static_asserts_too_short.
    reflexivity.
  - vm_compute. auto.
  - vm_compute. exact I.
Qed.

(** C7. The configuration built from no options has the default member
    initialisers: exceptions disabled, context length 1024, prompt and
    generation length [UINT64_MAX], batch size 1, gpu count 1, gpu rank 0,
    benchmark disabled, dev disabled. *)
Theorem default_configuration_fields :
  exists config,
    generate_model_config [] = inr config /\
    exceptions config = flag_disabled /\
    max_context_length config = 1024 /\
    max_prompt_length config = 18446744073709551615 /\
    max_generation_length config = 18446744073709551615 /\
    max_batch_size config = 1 /\
    gpu_count config = 1 /\
    gpu_rank config = 0 /\
    benchmark config = flag_disabled /\
    dev config = flag_disabled.
Proof.
  exists model_config_default. repeat split.
Qed.

(** C8. [update] with an argument of type [K] returns a configuration whose
    member of type [K] is the argument and whose other members are those
    of the configuration it was called on. *)
Theorem update_frame (config : model_config) (a : arg) :
  member (type_of a) (update config a) = a /\
  forall t, t <> type_of a -> member t (update config a) = member t config.
Proof.
  split.
  - apply member_update_same.
  - intros t Ht. now apply member_update_other.
Qed.

Lemma update_frame_witness :
  member T_max_batch_size (update model_config_default (max_batch_size_type 23))
  = max_batch_size_type 23 /\
  member T_dev (update model_config_default (max_batch_size_type 23))
  = member T_dev model_config_default.
Proof.
  destruct (update_frame model_config_default (max_batch_size_type 23))
    as [Hsame Hother].
  split; [exact Hsame|]. apply Hother. discriminate.
Defined.

(** C9. With the context length [UINT64_MAX] and both lengths unset,
    validation succeeds and both lengths resolve to [0]: inside [ceil_div]
    the sum [(2^64 - 1) + 2 - 1] is reduced modulo [2^64] to [0], so the
    result is [0] and not the ceiling [2^63]. *)
Theorem uint64_max_context_resolves_to_zero (config : model_config) :
  max_context_length config = uint64_max ->
  max_prompt_length config = uint64_max ->
  max_generation_length config = uint64_max ->
  wrap64 (wrap64 (uint64_max + 2) - 1) = 0 /\
  ceil_div uint64_max 2 = Some 0 /\
  ceiling uint64_max 2 = 2 ^ 63 /\
  exists m,
    instantiate config = Instantiated m /\
    model_config_type.max_prompt_length m = 0 /\
    model_config_type.max_generation_length m = 0.
Proof.
  intros Hc Hp Hg.
  repeat (split; [reflexivity|]).
  destruct (members_defined config) as (mpl & mgl & Ep & Eg & E).
  rewrite Hc, Hp in Ep. rewrite Hc, Hg in Eg.
  vm_compute in Ep, Eg.
  assert (mpl = 0) as -> by congruence.
  assert (mgl = 0) as -> by congruence.
  eexists. split.
  - destruct (instantiate_members _ _ E) as [[_ Hi]|[Hs _]]; [exact Hi|].
    exfalso. apply Hs. apply static_asserts_nil.
    cbn [model_config_type.max_context_length
         model_config_type.max_generation_length
         model_config_type.max_prompt_length].
    rewrite Hc. vm_compute. split; [reflexivity|discriminate].
  - split; reflexivity.
Qed.

Lemma uint64_max_context_resolves_to_zero_witness :
  wrap64 (wrap64 (uint64_max + 2) - 1) = 0 /\
  ceil_div uint64_max 2 = Some 0 /\
  ceiling uint64_max 2 = 2 ^ 63 /\
  exists m,
    instantiate config_context_enabled = Instantiated m /\
    model_config_type.max_prompt_length m = 0 /\
    model_config_type.max_generation_length m = 0.
Proof.
  apply (uint64_max_context_resolves_to_zero config_context_enabled);
    reflexivity.
Defined.

(** C10. The second assertion adds modulo [2^64]: with prompt length
    [2^64 - 2], generation length 3 and context length 1024, both lengths
    set and not the sentinel, the sum exceeds the context length, the
    reduced sum is [1], and validation succeeds. *)
Theorem sum_check_wraps (config : model_config) :
  max_context_length config = 1024 ->
  max_prompt_length config = 2 ^ 64 - 2 ->
  max_generation_length config = 3 ->
  max_prompt_length config <> uint64_max /\
  max_generation_length config <> uint64_max /\
  max_context_length config
  < max_generation_length config + max_prompt_length config /\
  wrap64 (max_generation_length config + max_prompt_length config) = 1 /\
  exists m,
    instantiate config = Instantiated m /\
    model_config_type.max_prompt_length m = 2 ^ 64 - 2 /\
    model_config_type.max_generation_length m = 3.
Proof.
  intros Hc Hp Hg. rewrite Hc, Hp, Hg.
  split; [discriminate|]. split; [discriminate|].
  split; [reflexivity|]. split; [reflexivity|].
  destruct (members_defined config) as (mpl & mgl & Ep & Eg & E).
  rewrite Hc, Hp in Ep. rewrite Hc, Hg in Eg.
  vm_compute in Ep, Eg.
  assert (mpl = 2 ^ 64 - 2) as -> by (vm_compute; congruence).
  assert (mgl = 3) as -> by congruence.
  eexists. split.
  - destruct (instantiate_members _ _ E) as [[_ Hi]|[Hs _]]; [exact Hi|].
    exfalso. apply Hs. apply static_asserts_nil.
    cbn [model_config_type.max_context_length
         model_config_type.max_generation_length
         model_config_type.max_prompt_length].
    rewrite Hc. vm_compute. split; [reflexivity|discriminate].
  - split; reflexivity.
Qed.

Lemma sum_check_wraps_witness :
  max_prompt_length config_wrapping_sum <> uint64_max /\
  max_generation_length config_wrapping_sum <> uint64_max /\
  max_context_length config_wrapping_sum
  < max_generation_length config_wrapping_sum
    + max_prompt_length config_wrapping_sum /\
  wrap64 (max_generation_length config_wrapping_sum
          + max_prompt_length config_wrapping_sum) = 1 /\
  exists m,
    instantiate config_wrapping_sum = Instantiated m /\
    model_config_type.max_prompt_length m = 2 ^ 64 - 2 /\
    model_config_type.max_generation_length m = 3.
Proof.
  apply (sum_check_wraps config_wrapping_sum); reflexivity.
Defined.

(** * Further properties of the code *)

(** ** The members of a built configuration *)

Lemma apply_updates_cons (config : model_config) (a : arg) (args : list arg) :
  apply_updates config (a :: args) = apply_updates (update config a) args.
Proof. reflexivity. Qed.

Lemma apply_updates_app (config : model_config) (args1 args2 : list arg) :
  apply_updates config (args1 ++ args2)
  = apply_updates (apply_updates config args1) args2.
Proof. unfold apply_updates. apply fold_left_app. Qed.

(** A member whose type is not in the pack is not touched by the fold. *)
Lemma apply_updates_member_other
    (args : list arg) (t : arg_type) (config : model_config) :
  ~ In t (map type_of args) ->
  member t (apply_updates config args) = member t config.
Proof.
  revert config. induction args as [|a args IH]; intros config Hn.
  - reflexivity.
  - rewrite apply_updates_cons, IH.
    + apply member_update_other. intro E. apply Hn. left. now symmetry.
    + intro Hin. apply Hn. now right.
Qed.

(** In a pack without repetition every argument ends up as the member of
    its type. *)
Lemma apply_updates_member_supplied
    (args : list arg) (a : arg) (config : model_config) :
  NoDup (map type_of args) ->
  In a args ->
  member (type_of a) (apply_updates config args) = a.
Proof.
  revert config. induction args as [|a0 args IH]; intros config Hnd Hin.
  - destruct Hin.
  - cbn [map] in Hnd. inversion Hnd as [|? ? Hfresh Hrest]; subst.
    rewrite apply_updates_cons. destruct Hin as [->|Hin].
    + rewrite (apply_updates_member_other _ _ _ Hfresh).
      apply member_update_same.
    + now apply IH.
Qed.

(** A pack with a repetition has two positions holding one type. *)
Lemma repeated_type_positions (l : list arg_type) :
  ~ NoDup l ->
  exists (i j : nat) (t : arg_type),
    (i < j)%nat /\ nth_error l i = Some t /\ nth_error l j = Some t.
Proof.
  induction l as [|u l IH]; intro Hn.
  - exfalso. apply Hn. constructor.
  - destruct (in_dec arg_type_eq_dec u l) as [Hin|Hout].
    + destruct (In_nth_error _ _ Hin) as [k Hk].
      exists 0%nat, (S k), u. repeat split; [lia|exact Hk].
    + destruct IH as (i & j & t & Hij & Hi & Hj).
      { intro Hnd. apply Hn. now constructor. }
      exists (S i), (S j), t. repeat split; [lia|exact Hi|exact Hj].
Qed.

Lemma update_overwrites (config : model_config) (a a' : arg) :
  type_of a = type_of a' ->
  update (update config a) a' = update config a'.
Proof.
  intro Hty. apply member_ext. intro t.
  destruct (arg_type_eq_dec t (type_of a')) as [->|Hne].
  - now rewrite !member_update_same.
  - rewrite !member_update_other; congruence.
Qed.

Lemma generate_model_config_from_inr
    (base : model_config) (args : list arg) (config : model_config) :
  generate_model_config_from base args = inr config ->
  NoDup (map type_of args) /\ config = apply_updates base args.
Proof.
  intro H.
  destruct (unique_configuration_types (map type_of args)) eqn:E.
  - apply unique_configuration_types_NoDup in E.
    rewrite (generate_model_config_from_unique _ _ E) in H.
    split; [exact E|congruence].
  - unfold generate_model_config_from in H. rewrite E in H. discriminate H.
Qed.

(** ** The uniqueness concept *)


(** X2. The concept is not satisfied exactly when one type stands at two
    different positions of the pack. *)
Theorem unique_configuration_types_false_iff (l : list arg_type) :
  unique_configuration_types l = false
  <-> exists (i j : nat) (t : arg_type),
        i <> j /\ nth_error l i = Some t /\ nth_error l j = Some t.
Proof.
  split.
  - intro H.
    destruct (repeated_type_positions l) as (i & j & t & Hij & Hi & Hj).
    { intro Hnd. apply unique_configuration_types_NoDup in Hnd. congruence. }
    exists i, j, t. repeat split; [lia|exact Hi|exact Hj].
  - intros (i & j & t & Hij & Hi & Hj).
    apply unique_configuration_types_dup. intro Hnd. apply Hij.
    apply (proj1 (NoDup_nth_error l) Hnd).
    + apply nth_error_Some. congruence.
    + congruence.
Qed.

(** ** Both overloads of the builder *)

(** X3. Over any base configuration, the builder returns a configuration
    exactly when the argument types are pairwise different, and the
    configuration is then the left-to-right fold of [update] over the base;
    the members of the base play no part in the acceptance. *)
Theorem generate_model_config_from_accepts_iff
    (base : model_config) (args : list arg) (config : model_config) :
  generate_model_config_from base args = inr config
  <-> NoDup (map type_of args) /\ config = fold_left update args base.
Proof.
  split.
  - apply generate_model_config_from_inr.
  - intros [Hnd ->]. now apply generate_model_config_from_unique.
Qed.

(** X4. There are nine wrapper types, so a call with more than nine
    arguments is always rejected as a duplicate. *)
Theorem generate_model_config_from_too_many
    (base : model_config) (args : list arg) :
  (9 < length args)%nat ->
  generate_model_config_from base args
  = inl (error_printer_impl duplicate_type_input (map type_of args)).
Proof.
  intro Hlen. apply generate_model_config_from_dup. intro Hnd.
  apply unique_configuration_types_NoDup in Hnd.
  apply unique_pack_length in Hnd. lia.
Qed.

Lemma generate_model_config_from_too_many_witness :
  generate_model_config_from model_config_default
    [exceptions_type true; max_context_length_type 64; gpu_rank_type 0;
     gpu_count_type 2; max_generation_length_type 16;
     max_prompt_length_type 16; max_batch_size_type 4; benchmark_type true;
     dev_type false; gpu_rank_type 1]
  = inl (error_printer_impl duplicate_type_input
           [T_exceptions; T_max_context_length; T_gpu_rank; T_gpu_count;
            T_max_generation_length; T_max_prompt_length; T_max_batch_size;
            T_benchmark; T_dev; T_gpu_rank]).
Proof.
  apply (generate_model_config_from_too_many model_config_default
           [exceptions_type true; max_context_length_type 64; gpu_rank_type 0;
            gpu_count_type 2; max_generation_length_type 16;
            max_prompt_length_type 16; max_batch_size_type 4;
            benchmark_type true; dev_type false; gpu_rank_type 1]).
  cbn [length]. lia.
Defined.

(** X5. In the configuration the builder returns, every supplied argument
    is the member of its type, and every member whose type was not supplied
    is the member of the base. *)
Theorem generate_model_config_from_members
    (base : model_config) (args : list arg) (config : model_config) :
  generate_model_config_from base args = inr config ->
  (forall a, In a args -> member (type_of a) config = a) /\
  (forall t, ~ In t (map type_of args) -> member t config = member t base).
Proof.
  intro H. apply generate_model_config_from_inr in H as [Hnd ->]. split.
  - intros a Ha. now apply apply_updates_member_supplied.
  - intros t Ht. now apply apply_updates_member_other.
Qed.

Lemma generate_model_config_from_members_witness :
  (forall a,
     In a [dev_type true; max_batch_size_type 23] ->
     member (type_of a)
       (apply_updates model_config_default
          [dev_type true; max_batch_size_type 23]) = a) /\
  (forall t,
     ~ In t (map type_of [dev_type true; max_batch_size_type 23]) ->
     member t
       (apply_updates model_config_default
          [dev_type true; max_batch_size_type 23])
     = member t model_config_default).
Proof.
  apply (generate_model_config_from_members model_config_default
           [dev_type true; max_batch_size_type 23]).
  reflexivity.
Defined.

(** X6. Layering: where one call with the arguments [args1] followed by
    [args2] is accepted, it returns what the overload over a base returns
    for [args2] on the configuration built from [args1]. *)
Theorem generate_model_config_from_app
    (base : model_config) (args1 args2 : list arg) :
  NoDup (map type_of (args1 ++ args2)) ->
  generate_model_config_from base (args1 ++ args2)
  = match generate_model_config_from base args1 with
    | inr config => generate_model_config_from config args2
    | inl error => inl error
    end.
Proof.
  intro Hnd.
  rewrite (generate_model_config_from_unique _ _ Hnd).
  rewrite map_app in Hnd.
  rewrite (generate_model_config_from_unique base args1)
    by (eapply NoDup_app_remove_r; exact Hnd).
  rewrite (generate_model_config_from_unique _ args2)
    by (eapply NoDup_app_remove_l; exact Hnd).
  now rewrite apply_updates_app.
Qed.

Lemma generate_model_config_from_app_witness :
  generate_model_config_from model_config_default
    ([dev_type true; gpu_count_type 4] ++ [gpu_rank_type 3])
  = match generate_model_config_from model_config_default
            [dev_type true; gpu_count_type 4] with
    | inr config => generate_model_config_from config [gpu_rank_type 3]
    | inl error => inl error
    end.
Proof.
  apply (generate_model_config_from_app model_config_default
           [dev_type true; gpu_count_type 4] [gpu_rank_type 3]).
  apply unique_configuration_types_NoDup. reflexivity.
Defined.

(** X7. The uniqueness check covers the new arguments only: two arguments
    of one type are rejected in one call, but the second may be supplied
    to the overload over the configuration built from the first, and it
    then replaces the first. *)
Theorem generate_model_config_from_overrides (a a' : arg) :
  type_of a = type_of a' ->
  generate_model_config [a; a']
  = inl (error_printer_impl duplicate_type_input [type_of a; type_of a']) /\
  exists config,
    generate_model_config [a] = inr config /\
    generate_model_config_from config [a']
    = inr (update model_config_default a').
Proof.
  intro Hty. split.
  - apply (generate_model_config_from_dup model_config_default [a; a']).
    cbn [map]. rewrite Hty. intro Hnd.
    inversion Hnd as [|? ? Hin _]. apply Hin. now left.
  - exists (update model_config_default a). split.
    + apply (generate_model_config_from_unique model_config_default [a]).
      cbn [map]. constructor; [intros []|constructor].
    + rewrite (generate_model_config_from_unique _ [a'])
        by (cbn [map]; constructor; [intros []|constructor]).
      cbn [apply_updates fold_left]. f_equal.
      now apply update_overwrites.
Qed.

Lemma generate_model_config_from_overrides_witness :
  generate_model_config [max_batch_size_type 4; max_batch_size_type 8]
  = inl (error_printer_impl duplicate_type_input
           [T_max_batch_size; T_max_batch_size]) /\
  exists config,
    generate_model_config [max_batch_size_type 4] = inr config /\
    generate_model_config_from config [max_batch_size_type 8]
    = inr (update model_config_default (max_batch_size_type 8)).
Proof.
  apply (generate_model_config_from_overrides
           (max_batch_size_type 4) (max_batch_size_type 8)).
  reflexivity.
Defined.

(** X8. Building again from a built configuration with the same arguments
    returns that configuration. *)
Theorem generate_model_config_from_idempotent
    (base : model_config) (args : list arg) (config : model_config) :
  generate_model_config_from base args = inr config ->
  generate_model_config_from config args = inr config.
Proof.
  intro H. apply generate_model_config_from_inr in H as [Hnd ->].
  rewrite (generate_model_config_from_unique _ _ Hnd). f_equal.
  apply member_ext. intro t.
  destruct (in_dec arg_type_eq_dec t (map type_of args)) as [Ht|Ht].
  - apply in_map_iff in Ht as (a & <- & Ha).
    now rewrite !(apply_updates_member_supplied _ _ _ Hnd Ha).
  - now apply apply_updates_member_other.
Qed.

Lemma generate_model_config_from_idempotent_witness :
  generate_model_config_from
    (apply_updates model_config_default
       [dev_type true; max_context_length_type 2048])
    [dev_type true; max_context_length_type 2048]
  = inr (apply_updates model_config_default
           [dev_type true; max_context_length_type 2048]).
Proof.
  apply (generate_model_config_from_idempotent model_config_default
           [dev_type true; max_context_length_type 2048]).
  reflexivity.
Defined.

(** ** Laws of [update] *)

(** X9. A second [update] with an argument of the same type replaces the
    first: the last value wins, and updating twice with one argument is
    updating once. *)
Theorem update_last_wins (config : model_config) (a a' : arg) :
  type_of a = type_of a' ->
  update (update config a) a' = update config a' /\
  update (update config a') a' = update config a'.
Proof.
  intro Hty. split; now apply update_overwrites.
Qed.

Lemma update_last_wins_witness :
  update (update model_config_default (gpu_count_type 2)) (gpu_count_type 8)
  = update model_config_default (gpu_count_type 8) /\
  update (update model_config_default (gpu_count_type 8)) (gpu_count_type 8)
  = update model_config_default (gpu_count_type 8).
Proof.
  apply (update_last_wins model_config_default
           (gpu_count_type 2) (gpu_count_type 8)).
  reflexivity.
Defined.

(** X10. Updating a configuration with one of its own members returns the
    configuration unchanged. *)
Theorem update_member_identity (config : model_config) (t : arg_type) :
  update config (member t config) = config.
Proof.
  apply member_ext. intro u.
  destruct (arg_type_eq_dec u t) as [->|Hne].
  - rewrite <- (member_type_of t config) at 1. apply member_update_same.
  - apply member_update_other. now rewrite member_type_of.
Qed.

(** ** [ceil_div] and the dependent defaults *)

Lemma two_63_value : 2 ^ 63 = 9223372036854775808.
Proof. reflexivity. Qed.

Lemma two_64_value : 2 ^ 64 = 18446744073709551616.
Proof. reflexivity. Qed.

(** The ceiling of the half is [(a + 1) / 2]. *)
Lemma ceiling_two (a : Z) : ceiling a 2 = (a + 1) / 2.
Proof.
  pose proof (ceiling_spec a 2 ltac:(lia)) as Hc.
  pose proof (Z.div_mod (a + 1) 2 ltac:(lia)) as Hdm.
  pose proof (Z.mod_pos_bound (a + 1) 2 ltac:(lia)) as Hm.
  lia.
Qed.

(** A default is half of a 64-bit value: it stays below [2^63]. *)
Lemma get_updated_value_default_bound (context v : Z) :
  get_updated_value uint64_max context = Some v -> 0 <= v < 2 ^ 63.
Proof.
  rewrite get_updated_value_unset, ceil_div_defined by lia. intros [= <-].
  pose proof (wrap64_range (wrap64 (context + 2) - 1)) as Hw.
  unfold is_uint64, uint64_max in Hw.
  rewrite two_64_value in Hw. rewrite two_63_value.
  pose proof (Z.div_mod (wrap64 (wrap64 (context + 2) - 1)) 2
                ltac:(lia)) as Hdm.
  pose proof (Z.mod_pos_bound (wrap64 (wrap64 (context + 2) - 1)) 2
                ltac:(lia)) as Hm.
  lia.
Qed.

Lemma instantiate_Instantiated (config : model_config) (m : model_config_type.t) :
  instantiate config = Instantiated m ->
  members config = Some m /\ static_asserts m = [].
Proof.
  destruct (members_defined config) as (mpl & mgl & _ & _ & E).
  destruct (instantiate_members _ _ E) as [[Hs Hi]|[_ Hi]];
    rewrite Hi; intros [= <-]; auto.
Qed.

(** The outcome in terms of the two resolved lengths. *)
Lemma succeeds_resolved (config : model_config) (p g : Z) :
  get_updated_value (max_prompt_length config) (max_context_length config)
  = Some p ->
  get_updated_value (max_generation_length config) (max_context_length config)
  = Some g ->
  succeeds (instantiate config)
  <-> 1 < max_context_length config /\
      wrap64 (g + p) <= max_context_length config.
Proof.
  intros Hp Hg.
  destruct (members_defined config) as (mpl & mgl & Ep & Eg & E).
  rewrite (succeeds_instantiate _ _ E), static_asserts_nil.
  cbn [model_config_type.max_context_length
       model_config_type.max_generation_length
       model_config_type.max_prompt_length].
  replace mpl with p by congruence. replace mgl with g by congruence.
  reflexivity.
Qed.

(** X11. Where [a + b - 1] fits 64 bits, [ceil_div a b] is the ceiling of
    [a / b], for any positive divisor. *)
Theorem ceil_div_ceiling (a b : Z) :
  0 <= a -> 0 < b -> a + b <= 2 ^ 64 ->
  ceil_div a b = Some (ceiling a b).
Proof.
  intros Ha Hb Hfit. rewrite ceil_div_defined by lia. f_equal.
  unfold wrap64. rewrite Zminus_mod_idemp_l.
  rewrite two_64_value in *.
  rewrite (Z.mod_small (a + b - 1)) by lia.
  pose proof (ceiling_spec a b Hb) as Hc.
  pose proof (Z.div_mod (a + b - 1) b ltac:(lia)) as Hdm.
  pose proof (Z.mod_pos_bound (a + b - 1) b Hb) as Hm.
  nia.
Qed.

Lemma ceil_div_ceiling_witness : ceil_div 7 3 = Some (ceiling 7 3).
Proof.
  apply (ceil_div_ceiling 7 3); [lia|lia|].
  rewrite two_64_value. lia.
Defined.

(** X12. On the 64-bit values, [ceil_div a 2] is the ceiling of [a / 2]
    for every [a] but [UINT64_MAX]. *)
Theorem ceil_div_two_ceiling_iff (a : Z) :
  is_uint64 a ->
  ceil_div a 2 = Some (ceiling a 2) <-> a <> uint64_max.
Proof.
  intros [Hlo Hhi]. split.
  - intros H ->. vm_compute in H. discriminate H.
  - intro Hne. apply ceil_div_two_ceiling. lia.
Qed.

Lemma ceil_div_two_ceiling_iff_witness :
  ceil_div 1023 2 = Some (ceiling 1023 2) <-> 1023 <> uint64_max.
Proof.
  apply (ceil_div_two_ceiling_iff 1023).
  unfold is_uint64, uint64_max. rewrite two_64_value. lia.
Defined.

(** X13. After the resolution neither length is the sentinel, and a length
    that was unset lies below [2^63]. *)
Theorem members_no_sentinel (config : model_config) (m : model_config_type.t) :
  members config = Some m ->
  model_config_type.max_prompt_length m <> uint64_max /\
  model_config_type.max_generation_length m <> uint64_max /\
  (max_prompt_length config = uint64_max ->
   0 <= model_config_type.max_prompt_length m < 2 ^ 63) /\
  (max_generation_length config = uint64_max ->
   0 <= model_config_type.max_generation_length m < 2 ^ 63).
Proof.
  intro E.
  pose proof (members_max_prompt_length _ _ E) as Hp.
  pose proof (members_max_generation_length _ _ E) as Hg.
  assert (Hmax : uint64_max = 18446744073709551615) by reflexivity.
  assert (Bp : max_prompt_length config = uint64_max ->
               0 <= model_config_type.max_prompt_length m < 2 ^ 63).
  { intro Hu. rewrite Hu in Hp.
    exact (get_updated_value_default_bound _ _ Hp). }
  assert (Bg : max_generation_length config = uint64_max ->
               0 <= model_config_type.max_generation_length m < 2 ^ 63).
  { intro Hu. rewrite Hu in Hg.
    exact (get_updated_value_default_bound _ _ Hg). }
  rewrite two_63_value in *.
  repeat split; try (apply Bp; assumption); try (apply Bg; assumption).
  - destruct (Z.eq_dec (max_prompt_length config) uint64_max) as [Hu|Hu].
    + specialize (Bp Hu). lia.
    + rewrite (get_updated_value_keeps_set _ _ _ Hu Hp). exact Hu.
  - destruct (Z.eq_dec (max_generation_length config) uint64_max) as [Hu|Hu].
    + specialize (Bg Hu). lia.
    + rewrite (get_updated_value_keeps_set _ _ _ Hu Hg). exact Hu.
Qed.

Lemma members_no_sentinel_witness :
  exists m,
    members config_context_enabled = Some m /\
    model_config_type.max_prompt_length m <> uint64_max /\
    model_config_type.max_generation_length m <> uint64_max /\
    (max_prompt_length config_context_enabled = uint64_max ->
     0 <= model_config_type.max_prompt_length m < 2 ^ 63) /\
    (max_generation_length config_context_enabled = uint64_max ->
     0 <= model_config_type.max_generation_length m < 2 ^ 63).
Proof.
  eexists. split; [vm_compute; reflexivity|].
  apply (members_no_sentinel config_context_enabled). reflexivity.
Defined.

(** ** What the validation looks at *)

Lemma static_asserts_lengths (m m' : model_config_type.t) :
  model_config_type.max_context_length m
  = model_config_type.max_context_length m' ->
  model_config_type.max_prompt_length m
  = model_config_type.max_prompt_length m' ->
  model_config_type.max_generation_length m
  = model_config_type.max_generation_length m' ->
  static_asserts m = static_asserts m'.
Proof.
  intros Hc Hp Hg. unfold static_asserts. now rewrite Hc, Hp, Hg.
Qed.

(** X14. The validation reads the three lengths only: configurations that
    agree on them are accepted or rejected alike, with the same
    diagnostics, whatever their flags, batch size, gpu count and gpu rank
    (a gpu rank not below the gpu count, or a batch size of 0, is not
    rejected). *)
Theorem instantiate_reads_lengths_only (config config' : model_config) :
  max_context_length config = max_context_length config' ->
  max_prompt_length config = max_prompt_length config' ->
  max_generation_length config = max_generation_length config' ->
  (succeeds (instantiate config) <-> succeeds (instantiate config')) /\
  (forall errors,
     instantiate config = Ill_formed errors
     <-> instantiate config' = Ill_formed errors).
Proof.
  intros Hc Hp Hg.
  destruct (members_defined config) as (p & g & Ep & Eg & E).
  destruct (members_defined config') as (p' & g' & Ep' & Eg' & E').
  rewrite <- Hc, <- Hp in Ep'. rewrite <- Hc, <- Hg in Eg'.
  assert (p' = p) as -> by congruence.
  assert (g' = g) as -> by congruence.
  match type of E with members _ = Some ?r => set (m := r) in * end.
  match type of E' with members _ = Some ?r => set (m' := r) in * end.
  assert (Hs : static_asserts m = static_asserts m').
  { apply static_asserts_lengths; [exact Hc|reflexivity|reflexivity]. }
  split.
  - rewrite (succeeds_instantiate _ _ E), (succeeds_instantiate _ _ E').
    now rewrite Hs.
  - intro errors.
    destruct (instantiate_members _ _ E) as [[Hn ->]|[Hn ->]];
      destruct (instantiate_members _ _ E') as [[Hn' ->]|[Hn' ->]].
    + split; discriminate.
    + exfalso. apply Hn'. now rewrite <- Hs.
    + exfalso. apply Hn. now rewrite Hs.
    + now rewrite Hs.
Qed.

Lemma instantiate_reads_lengths_only_witness :
  (succeeds (instantiate model_config_default)
   <-> succeeds
         (instantiate
            (apply_updates model_config_default
               [gpu_rank_type 5; max_batch_size_type 0]))) /\
  (forall errors,
     instantiate model_config_default = Ill_formed errors
     <-> instantiate
           (apply_updates model_config_default
              [gpu_rank_type 5; max_batch_size_type 0])
         = Ill_formed errors).
Proof.
  apply (instantiate_reads_lengths_only model_config_default
           (apply_updates model_config_default
              [gpu_rank_type 5; max_batch_size_type 0]));
    reflexivity.
Defined.

(** X15. A successful instantiation carries the configuration's flags,
    batch size, gpu count, gpu rank and context length unchanged, and every
    length that was set. *)
Theorem instantiate_frame (config : model_config) (m : model_config_type.t) :
  instantiate config = Instantiated m ->
  model_config_type.exceptions m = exceptions config /\
  model_config_type.max_context_length m = max_context_length config /\
  model_config_type.max_batch_size m = max_batch_size config /\
  model_config_type.gpu_count m = gpu_count config /\
  model_config_type.gpu_rank m = gpu_rank config /\
  model_config_type.benchmark m = benchmark config /\
  model_config_type.dev m = dev config /\
  (max_prompt_length config <> uint64_max ->
   model_config_type.max_prompt_length m = max_prompt_length config) /\
  (max_generation_length config <> uint64_max ->
   model_config_type.max_generation_length m = max_generation_length config).
Proof.
  intro H. apply instantiate_Instantiated in H as [E _].
  pose proof (members_max_prompt_length _ _ E) as Hp.
  pose proof (members_max_generation_length _ _ E) as Hg.
  destruct (members_defined config) as (p & g & _ & _ & E').
  rewrite E' in E. injection E as <-.
  cbn. repeat split.
  - intro Hu. exact (get_updated_value_keeps_set _ _ _ Hu Hp).
  - intro Hu. exact (get_updated_value_keeps_set _ _ _ Hu Hg).
Qed.

Lemma instantiate_frame_witness :
  exists m,
    instantiate config_2_1_1 = Instantiated m /\
    model_config_type.exceptions m = exceptions config_2_1_1 /\
    model_config_type.max_context_length m = max_context_length config_2_1_1 /\
    model_config_type.max_batch_size m = max_batch_size config_2_1_1 /\
    model_config_type.gpu_count m = gpu_count config_2_1_1 /\
    model_config_type.gpu_rank m = gpu_rank config_2_1_1 /\
    model_config_type.benchmark m = benchmark config_2_1_1 /\
    model_config_type.dev m = dev config_2_1_1 /\
    (max_prompt_length config_2_1_1 <> uint64_max ->
     model_config_type.max_prompt_length m = max_prompt_length config_2_1_1) /\
    (max_generation_length config_2_1_1 <> uint64_max ->
     model_config_type.max_generation_length m
     = max_generation_length config_2_1_1).
Proof.
  eexists. split; [vm_compute; reflexivity|].
  apply (instantiate_frame config_2_1_1). reflexivity.
Defined.

(** X16. Of the four declared errors two are all the validation ever
    reports, and the builder reports [duplicate_type_input] only:
    [context_length_too_large] is never reported. *)
Theorem reported_errors (config : model_config) :
  (forall e,
     fails_with (instantiate config) e ->
     e = context_length_too_short \/
     e = prompt_length_or_generation_length_too_large) /\
  (forall base args error,
     generate_model_config_from base args = inl error ->
     error = error_printer_impl duplicate_type_input (map type_of args)).
Proof.
  split.
  - intros e He.
    destruct (members_defined config) as (p & g & _ & _ & E).
    apply (fails_with_instantiate _ _ _ E) in He. revert He.
    match type of E with members _ = Some ?r => generalize r end.
    intro m. split_asserts m; intro Hin;
      repeat (destruct Hin as [Hin|Hin]; auto); contradiction.
  - intros base args error H.
    unfold generate_model_config_from, static_assert_printer in H.
    destruct (unique_configuration_types (map type_of args));
      [discriminate H|congruence].
Qed.

(** ** Which configurations validate *)

(** With the context length below [UINT64_MAX], both defaults are
    [(context + 1) / 2]. *)
Lemma get_updated_value_default (context : Z) :
  0 <= context < uint64_max ->
  get_updated_value uint64_max context = Some ((context + 1) / 2).
Proof.
  intro Hc. rewrite get_updated_value_unset, (ceil_div_two_ceiling _ Hc).
  now rewrite ceiling_two.
Qed.

Lemma half_bounds (a : Z) :
  2 * ((a + 1) / 2) = a + 1 \/ 2 * ((a + 1) / 2) = a.
Proof.
  pose proof (Z.div_mod (a + 1) 2 ltac:(lia)) as Hdm.
  pose proof (Z.mod_pos_bound (a + 1) 2 ltac:(lia)) as Hm.
  lia.
Qed.

Lemma half_even (a : Z) : Z.even a = true -> 2 * ((a + 1) / 2) = a.
Proof.
  intro He. apply Z.even_spec in He as [k ->].
  pose proof (Z.div_mod (2 * k + 1) 2 ltac:(lia)) as Hdm.
  pose proof (Z.mod_pos_bound (2 * k + 1) 2 ltac:(lia)) as Hm.
  lia.
Qed.

Lemma half_odd (a : Z) : Z.odd a = true -> 2 * ((a + 1) / 2) = a + 1.
Proof.
  intro Ho. apply Z.odd_spec in Ho as [k ->].
  pose proof (Z.div_mod (2 * k + 1 + 1) 2 ltac:(lia)) as Hdm.
  pose proof (Z.mod_pos_bound (2 * k + 1 + 1) 2 ltac:(lia)) as Hm.
  lia.
Qed.

(** X17. With both lengths unset, a configuration validates exactly when
    its context length is greater than 1 and either even or [UINT64_MAX]:
    for an odd context length the two defaults add up to one more than the
    context length. *)
Theorem defaults_validate_iff (config : model_config) :
  is_uint64 (max_context_length config) ->
  max_prompt_length config = uint64_max ->
  max_generation_length config = uint64_max ->
  succeeds (instantiate config)
  <-> 1 < max_context_length config /\
      (Z.even (max_context_length config) = true \/
       max_context_length config = uint64_max).
Proof.
  intros [Hlo Hhi] Hp Hg.
  destruct (Z.eq_dec (max_context_length config) uint64_max) as [Hmax|Hne].
  - rewrite (succeeds_resolved config 0 0)
      by (rewrite ?Hp, ?Hg, Hmax; reflexivity).
    rewrite Hmax. vm_compute. intuition discriminate.
  - set (c := max_context_length config) in *.
    assert (Hd : get_updated_value uint64_max c = Some ((c + 1) / 2))
      by (apply get_updated_value_default; lia).
    rewrite (succeeds_resolved config ((c + 1) / 2) ((c + 1) / 2))
      by (rewrite ?Hp, ?Hg; exact Hd).
    fold c. unfold uint64_max in *. rewrite two_64_value in *.
    unfold wrap64. rewrite two_64_value.
    pose proof (half_bounds c) as Hb.
    rewrite Z.mod_small by lia.
    destruct (Z.even c) eqn:Ev.
    + pose proof (half_even c Ev). intuition lia.
    + rewrite <- Z.negb_odd in Ev. apply negb_false_iff in Ev.
      pose proof (half_odd c Ev). intuition (try discriminate; lia).
Qed.

Lemma defaults_validate_iff_witness :
  succeeds (instantiate model_config_default)
  <-> 1 < max_context_length model_config_default /\
      (Z.even (max_context_length model_config_default) = true \/
       max_context_length model_config_default = uint64_max).
Proof.
  apply (defaults_validate_iff model_config_default).
  - unfold is_uint64, uint64_max. rewrite two_64_value. cbn. lia.
  - reflexivity.
  - reflexivity.
Defined.

(** X18. With both lengths unset and an odd context length below
    [UINT64_MAX], the instantiation is rejected with
    [prompt_length_or_generation_length_too_large], reporting the context
    length and the two defaults [(context + 1) / 2]. *)
Theorem odd_context_rejected (config : model_config) :
  0 <= max_context_length config < uint64_max ->
  Z.odd (max_context_length config) = true ->
  max_prompt_length config = uint64_max ->
  max_generation_length config = uint64_max ->
  exists errors,
    instantiate config = Ill_formed errors /\
    In (error_printer_impl_val prompt_length_or_generation_length_too_large
          [max_context_length config;
           (max_context_length config + 1) / 2;
           (max_context_length config + 1) / 2]) errors.
Proof.
  intros Hc Ho Hp Hg.
  destruct (members_defined config) as (p & g & Ep & Eg & E).
  rewrite Hp in Ep. rewrite Hg in Eg.
  rewrite (get_updated_value_default _ Hc) in Ep, Eg.
  injection Ep as <-. injection Eg as <-.
  match type of E with members _ = Some ?r => set (m := r) in * end.
  apply (too_large_reports_values config m E).
  apply (fails_with_instantiate _ _ _ E), static_asserts_too_large.
  cbn [m model_config_type.max_context_length
       model_config_type.max_generation_length
       model_config_type.max_prompt_length].
  pose proof (half_odd _ Ho) as Hh.
  unfold wrap64. unfold uint64_max in Hc. rewrite two_64_value in *.
  rewrite Z.mod_small; lia.
Qed.

(** The witness is the configuration [config_03] of [main]. *)
Lemma odd_context_rejected_witness :
  exists errors,
    instantiate
      (apply_updates model_config_default
         [benchmark_type flag_disabled; max_context_length_type 23;
          dev_type flag_enabled])
    = Ill_formed errors /\
    In (error_printer_impl_val prompt_length_or_generation_length_too_large
          [23; (23 + 1) / 2; (23 + 1) / 2]) errors.
Proof.
  apply (odd_context_rejected
           (apply_updates model_config_default
              [benchmark_type flag_disabled; max_context_length_type 23;
               dev_type flag_enabled])).
  - vm_compute. split; [discriminate|reflexivity].
  - reflexivity.
  - reflexivity.
  - reflexivity.
Defined.

Lemma get_updated_value_below_half_range (given context v : Z) :
  given = uint64_max \/ given < 2 ^ 63 ->
  get_updated_value given context = Some v -> v < 2 ^ 63.
Proof.
  intros [->|Hlt] H.
  - now apply (get_updated_value_default_bound context).
  - rewrite get_updated_value_set in H.
    + now injection H as <-.
    + intros ->. vm_compute in Hlt. discriminate Hlt.
Qed.

Lemma members_no_sentinel_bound (config : model_config) (m : model_config_type.t) :
  members config = Some m ->
  max_prompt_length config = uint64_max \/ max_prompt_length config < 2 ^ 63 ->
  max_generation_length config = uint64_max \/
  max_generation_length config < 2 ^ 63 ->
  model_config_type.max_prompt_length m < 2 ^ 63 /\
  model_config_type.max_generation_length m < 2 ^ 63.
Proof.
  intros E Bp Bg. split.
  - exact (get_updated_value_below_half_range _ _ _ Bp
             (members_max_prompt_length _ _ E)).
  - exact (get_updated_value_below_half_range _ _ _ Bg
             (members_max_generation_length _ _ E)).
Qed.

(** X19. The validation is sound for lengths below [2^63]: when each length
    is unset or set below [2^63], a successful instantiation has resolved
    lengths whose sum, over the integers, is at most the context length. *)
Theorem instantiate_sound_below_half_range
    (config : model_config) (m : model_config_type.t) :
  config_in_range config ->
  (max_prompt_length config = uint64_max \/ max_prompt_length config < 2 ^ 63) ->
  (max_generation_length config = uint64_max \/
   max_generation_length config < 2 ^ 63) ->
  instantiate config = Instantiated m ->
  1 < model_config_type.max_context_length m /\
  model_config_type.max_generation_length m
  + model_config_type.max_prompt_length m
  <= model_config_type.max_context_length m.
Proof.
  intros Hr Bp Bg H. apply instantiate_Instantiated in H as [E Hs].
  apply static_asserts_nil in Hs as [H1 H2]. split; [exact H1|].
  destruct (members_in_range _ _ Hr E) as (_ & [Hp0 _] & [Hg0 _]).
  destruct (members_no_sentinel_bound config m E Bp Bg) as [Hp Hg].
  unfold wrap64 in H2. rewrite two_63_value in *.
  rewrite Z.mod_small in H2; [exact H2|]. rewrite two_64_value. lia.
Qed.

Lemma instantiate_sound_below_half_range_witness :
  exists m,
    instantiate config_2_1_1 = Instantiated m /\
    1 < model_config_type.max_context_length m /\
    model_config_type.max_generation_length m
    + model_config_type.max_prompt_length m
    <= model_config_type.max_context_length m.
Proof.
  eexists. split; [vm_compute; reflexivity|].
  apply (instantiate_sound_below_half_range config_2_1_1).
  - unfold config_in_range, is_uint64. vm_compute.
    repeat split; discriminate.
  - right. reflexivity.
  - right. reflexivity.
  - reflexivity.
Defined.

(** X20. With one length unset and the other set to [s] below [2^63], and
    the context length below [UINT64_MAX], a configuration validates
    exactly when the context length is greater than 1 and [s] is at most
    half the context length, rounded down. *)
Theorem one_default_validates_iff (config : model_config) (s : Z) :
  0 <= max_context_length config < uint64_max ->
  0 <= s < 2 ^ 63 ->
  (max_prompt_length config = uint64_max /\ max_generation_length config = s) \/
  (max_generation_length config = uint64_max /\ max_prompt_length config = s) ->
  succeeds (instantiate config)
  <-> 1 < max_context_length config /\ s <= max_context_length config / 2.
Proof.
  intros Hc Hs Hcase.
  set (c := max_context_length config) in *.
  assert (Hd : get_updated_value uint64_max c = Some ((c + 1) / 2))
    by (apply get_updated_value_default; exact Hc).
  assert (Hset : get_updated_value s c = Some s).
  { apply get_updated_value_set. intros ->. vm_compute in Hs.
    destruct Hs as [_ Hs]. discriminate Hs. }
  assert (Hiff : succeeds (instantiate config)
                 <-> 1 < c /\ wrap64 (s + (c + 1) / 2) <= c).
  { destruct Hcase as [[Hp Hg]|[Hg Hp]].
    - rewrite (succeeds_resolved config ((c + 1) / 2) s)
        by (rewrite ?Hp, ?Hg; assumption).
      reflexivity.
    - rewrite (succeeds_resolved config s ((c + 1) / 2))
        by (rewrite ?Hp, ?Hg; assumption).
      fold c. now rewrite (Z.add_comm s). }
  rewrite Hiff. unfold wrap64, uint64_max in *.
  rewrite two_63_value, two_64_value in *.
  pose proof (Z.div_mod (c + 1) 2 ltac:(lia)) as Hdm1.
  pose proof (Z.mod_pos_bound (c + 1) 2 ltac:(lia)) as Hm1.
  pose proof (Z.div_mod c 2 ltac:(lia)) as Hdm.
  pose proof (Z.mod_pos_bound c 2 ltac:(lia)) as Hm.
  rewrite Z.mod_small by lia. lia.
Qed.

Lemma one_default_validates_iff_witness :
  succeeds
    (instantiate (update config_context_101 (max_generation_length_type 50)))
  <-> 1 < max_context_length
            (update config_context_101 (max_generation_length_type 50)) /\
      50 <= max_context_length
              (update config_context_101 (max_generation_length_type 50)) / 2.
Proof.
  apply (one_default_validates_iff
           (update config_context_101 (max_generation_length_type 50)) 50).
  - vm_compute. split; [discriminate|reflexivity].
  - vm_compute. split; [discriminate|reflexivity].
  - left. split; reflexivity.
Defined.

(** X21. With both lengths unset and an even context length greater than
    1, the instantiation succeeds and each length is resolved to half the
    context length: the defaults split the context exactly. *)
Theorem even_context_split (config : model_config) :
  1 < max_context_length config < uint64_max ->
  Z.even (max_context_length config) = true ->
  max_prompt_length config = uint64_max ->
  max_generation_length config = uint64_max ->
  exists m,
    instantiate config = Instantiated m /\
    model_config_type.max_prompt_length m = max_context_length config / 2 /\
    model_config_type.max_generation_length m = max_context_length config / 2 /\
    model_config_type.max_prompt_length m
    + model_config_type.max_generation_length m
    = max_context_length config.
Proof.
  intros Hc He Hp Hg.
  destruct (members_defined config) as (p & g & Ep & Eg & E).
  rewrite Hp in Ep. rewrite Hg in Eg.
  rewrite get_updated_value_default in Ep, Eg by lia.
  injection Ep as <-. injection Eg as <-.
  pose proof (half_even _ He) as Hh.
  assert (Hhalf : (max_context_length config + 1) / 2
                  = max_context_length config / 2).
  { pose proof (Z.div_mod (max_context_length config) 2 ltac:(lia)) as Hdm.
    pose proof (Z.mod_pos_bound (max_context_length config) 2 ltac:(lia)).
    lia. }
  eexists. split.
  - destruct (instantiate_members _ _ E) as [[_ Hi]|[Hs _]]; [exact Hi|].
    exfalso. apply Hs. apply static_asserts_nil.
    cbn [model_config_type.max_context_length
         model_config_type.max_generation_length
         model_config_type.max_prompt_length].
    unfold wrap64. unfold uint64_max in Hc. rewrite two_64_value in *.
    rewrite Z.mod_small; lia.
  - cbn [model_config_type.max_generation_length
         model_config_type.max_prompt_length].
    rewrite Hhalf. repeat split. lia.
Qed.

Lemma even_context_split_witness :
  exists m,
    instantiate model_config_default = Instantiated m /\
    model_config_type.max_prompt_length m
    = max_context_length model_config_default / 2 /\
    model_config_type.max_generation_length m
    = max_context_length model_config_default / 2 /\
    model_config_type.max_prompt_length m
    + model_config_type.max_generation_length m
    = max_context_length model_config_default.
Proof.
  apply (even_context_split model_config_default).
  - vm_compute. split; reflexivity.
  - reflexivity.
  - reflexivity.
  - reflexivity.
Defined.
